(** * COVID-19 India analysis: the data pipeline of [covid_analysis.py]

    A shallow embedding of [load_data], [preprocess_data] and the metric
    computation of [main], and the properties of the pipeline.

    Modelling conventions.
    - A [pd.Timestamp] is an integer ([Z]) that orders like the calendar.
    - The counter columns are [int64] columns; they are modelled in [Z], which
      agrees with pandas as long as no column sum leaves the [int64] range.
    - [NaN] in a numeric column is [None]; the columns produced by [diff] are
      [float64] columns holding integer values, modelled in [Z].
    - A rolling mean is an exact rational in lowest terms ([Q]).
    - The scalar parsers behind [pd.to_datetime] and [pd.to_numeric] belong to
      pandas; the loader is parametric in them.
    - A raw row carries a date string and a region string; its counter cells
      are missing, integers or text. Rows without a date, fractional and
      infinite counters are outside the model.
    - The cleaned table [cases_df] is a list of rows; the derived frame
      [state_data] is a record of columns. *)

From stdpp Require Import base numbers list strings gmap sorting.
From Stdlib Require Import QArith Ascii.

Local Close Scope Q_scope.
Local Open Scope Z_scope.

(** ** Exceptions *)

(** [MalformedDateError] is the [ValueError] that [pd.to_datetime] raises on
    a string it cannot parse; [KeyError] is raised by a column access on a
    frame without that column, [TypeError] by an operation on a column of
    the wrong dtype. *)
Inductive exn :=
  | MalformedDateError
  | KeyError (col : string)
  | TypeError.

Inductive result (A : Type) :=
  | Ok (a : A)
  | Raise (e : exn).
Arguments Ok {A} a.
Arguments Raise {A} e.

Definition rbind {A B} (m : result A) (k : A → result B) : result B :=
  match m with
  | Ok a => k a
  | Raise e => Raise e
  end.

Fixpoint rmapM {A B} (f : A → result B) (l : list A) : result (list B) :=
  match l with
  | [] => Ok []
  | x :: l' => rbind (f x) (λ y, rbind (rmapM f l') (λ ys, Ok (y :: ys)))
  end.

(** ** Data model *)

(** A cell of a counter column as [pd.read_csv] delivers it: missing, a
    number, or text (the column then has dtype [object]). *)
Inductive cell :=
  | NaN
  | Num (z : Z)
  | Str (s : string).

Record raw_row := {
  raw_Date : string;
  raw_State : string;
  raw_Confirmed : cell;
  raw_Deaths : cell;
  raw_Cured : cell
}.

(** A row of the cleaned table [cases_df]. *)
Record row := {
  Date : Z;
  State : string;
  Confirmed : Z;
  Deaths : Z;
  Cured : Z
}.

(** ** [load_data] *)

(** [str.strip()]: the ASCII white space of Python. *)
Definition is_space (c : ascii) : bool :=
  match nat_of_ascii c with
  | 9%nat | 10%nat | 11%nat | 12%nat | 13%nat
  | 28%nat | 29%nat | 30%nat | 31%nat | 32%nat => true
  | _ => false
  end.

Fixpoint lstrip (s : list ascii) : list ascii :=
  match s with
  | [] => []
  | c :: s' => if is_space c then lstrip s' else s
  end.

Definition strip (s : string) : string :=
  String.string_of_list_ascii
    (rev (lstrip (rev (lstrip (String.list_ascii_of_string s))))).

(** [fillna(0)] on a column as read: a missing cell becomes the number 0. *)
Definition cell_fillna (v : Z) (c : cell) : cell :=
  match c with
  | NaN => Num v
  | _ => c
  end.

(** [fillna(v)] on a numeric column. *)
Definition fillna (v : Z) (l : list (option Z)) : list Z :=
  map (default v) l.

Section Loader.

(** The scalar parser of [pd.to_datetime]: [None] when the string is not a
    date. *)
Variable to_datetime : string → option Z.

(** The scalar parser of [pd.to_numeric]: [None] when the string is not a
    number. *)
Variable to_numeric : string → option Z.

(** [pd.to_numeric(_, errors='coerce')] on one cell. *)
Definition to_numeric_coerce (c : cell) : option Z :=
  match c with
  | NaN => None
  | Num z => Some z
  | Str s => to_numeric s
  end.

(** Lines 25-32 on one cell:
    [pd.to_numeric(col.fillna(0), errors='coerce').fillna(0).astype(int)]. *)
Definition clean_counter (c : cell) : Z :=
  default 0 (to_numeric_coerce (cell_fillna 0 c)).

(** Lines 19-32 on one row. *)
Definition clean_row (r : raw_row) : result row :=
  match to_datetime (raw_Date r) with
  | None => Raise MalformedDateError
  | Some d =>
      Ok {| Date := d;
            State := strip (raw_State r);
            Confirmed := clean_counter (raw_Confirmed r);
            Deaths := clean_counter (raw_Deaths r);
            Cured := clean_counter (raw_Cured r) |}
  end.

Definition clean_rows (raw : list raw_row) : result (list row) :=
  rmapM clean_row raw.

End Loader.

(** The key of [drop_duplicates(subset=['Date', 'State/UnionTerritory'])]. *)
Definition key (r : row) : Z * string := (Date r, State r).

(** [drop_duplicates(..., keep='last')]: a row is dropped when a later row
    has its key; the kept rows stay in their order. *)
Fixpoint drop_duplicates (l : list row) : list row :=
  match l with
  | [] => []
  | r :: l' =>
      if bool_decide (key r ∈ map key l')
      then drop_duplicates l'
      else r :: drop_duplicates l'
  end.

(** [sort_values('Date')]. pandas leaves the order of rows with equal dates
    open; the model keeps them in their order. *)
Fixpoint insert_by_Date (r : row) (l : list row) : list row :=
  match l with
  | [] => [r]
  | x :: l' =>
      if Date r <=? Date x then r :: l else x :: insert_by_Date r l'
  end.

Definition sort_values (l : list row) : list row :=
  foldr insert_by_Date [] l.

Definition load_data (to_datetime to_numeric : string → option Z)
    (raw : list raw_row) : result (list row) :=
  rbind (clean_rows to_datetime to_numeric raw)
        (λ cases_df, Ok (sort_values (drop_duplicates cases_df))).

(** ** [preprocess_data] *)

(** A row of [groupby('Date').agg({... 'sum'}).reset_index()]. *)
Record group := {
  g_Date : Z;
  g_Confirmed : Z;
  g_Deaths : Z;
  g_Cured : Z
}.

Definition group_of_row (r : row) : group :=
  {| g_Date := Date r; g_Confirmed := Confirmed r;
     g_Deaths := Deaths r; g_Cured := Cured r |}.

Definition group_add (r : row) (g : group) : group :=
  {| g_Date := g_Date g;
     g_Confirmed := g_Confirmed g + Confirmed r;
     g_Deaths := g_Deaths g + Deaths r;
     g_Cured := g_Cured g + Cured r |}.

(** One row enters the grouped result, which is kept in ascending order of
    its keys: it joins the group of its date or opens a new one. *)
Fixpoint add_to_groups (r : row) (gs : list group) : list group :=
  match gs with
  | [] => [group_of_row r]
  | g :: gs' =>
      if Date r <? g_Date g then group_of_row r :: gs
      else if Date r =? g_Date g then group_add r g :: gs'
      else g :: add_to_groups r gs'
  end.

Definition groupby_Date_sum (df : list row) : list group :=
  foldl (λ gs r, add_to_groups r gs) [] df.

(** [Series.diff()]: [NaN] on the first row, the difference to the previous
    row elsewhere. *)
Fixpoint diff_from (prev : Z) (l : list Z) : list (option Z) :=
  match l with
  | [] => []
  | x :: l' => Some (x - prev) :: diff_from x l'
  end.

Definition diff (l : list Z) : list (option Z) :=
  match l with
  | [] => []
  | x :: l' => None :: diff_from x l'
  end.

(** [Series.clip(lower=lo)]. *)
Definition clip_lower (lo : Z) (l : list Z) : list Z :=
  map (Z.max lo) l.

Definition sumZ (l : list Z) : Z := foldr Z.add 0 l.

(** The mean of a full window, in lowest terms. *)
Definition mean (win : list Z) : Q :=
  Qred (Qmake (sumZ win) (Pos.of_nat (length win))).

(** [Series.rolling(window=w).mean()]: the window slides over the rows; a
    row whose window holds fewer than [w] observations gets [NaN]. *)
Fixpoint rolling_mean_from (w : nat) (win : list Z) (l : list Z)
    : list (option Q) :=
  match l with
  | [] => []
  | x :: l' =>
      let win' := (if (length win <? w)%nat then win else tail win) ++ [x] in
      (if (length win' =? w)%nat then Some (mean win') else None)
        :: rolling_mean_from w win' l'
  end.

Definition rolling_mean (w : nat) (l : list Z) : list (option Q) :=
  rolling_mean_from w [] l.

(** The derived frame [state_data], column by column. *)
Record StateData := {
  col_Date : list Z;
  col_Confirmed : list Z;
  col_Deaths : list Z;
  col_Cured : list Z;
  col_New_Cases : list Z;
  col_New_Deaths : list Z;
  col_New_Recoveries : list Z;
  col_New_Cases_MA : list (option Q);
  col_New_Deaths_MA : list (option Q);
  col_New_Recoveries_MA : list (option Q)
}.

(** Lines 60-68 for one column: [col.diff().fillna(0).clip(lower=0)]. *)
Definition daily_new (col : list Z) : list Z :=
  clip_lower 0 (fillna 0 (diff col)).

Definition All_India : string := "All India".

Definition preprocess_data (cases_df : list row) (selected_state : string)
    : StateData :=
  let state_data :=
    if bool_decide (selected_state = All_India)
    then groupby_Date_sum cases_df
    else groupby_Date_sum
           (filter (λ r, State r = selected_state) cases_df) in
  let confirmed := map g_Confirmed state_data in
  let deaths := map g_Deaths state_data in
  let cured := map g_Cured state_data in
  let new_cases := daily_new confirmed in
  let new_deaths := daily_new deaths in
  let new_recoveries := daily_new cured in
  {| col_Date := map g_Date state_data;
     col_Confirmed := confirmed;
     col_Deaths := deaths;
     col_Cured := cured;
     col_New_Cases := new_cases;
     col_New_Deaths := new_deaths;
     col_New_Recoveries := new_recoveries;
     col_New_Cases_MA := rolling_mean 7 new_cases;
     col_New_Deaths_MA := rolling_mean 7 new_deaths;
     col_New_Recoveries_MA := rolling_mean 7 new_recoveries |}.

(** ** The metrics and the latest snapshot of [main] *)

(** [Series.max()]: [NaN] on an empty column. *)
Definition Series_max (l : list Z) : option Z :=
  match l with
  | [] => None
  | x :: l' => Some (foldl Z.max x l')
  end.

(** Subtraction of two scalars, either of which may be [NaN]. *)
Definition nan_sub (a b : option Z) : option Z :=
  match a, b with
  | Some x, Some y => Some (x - y)
  | _, _ => None
  end.

Record Metrics := {
  Total_Cases : option Z;
  Total_Deaths : option Z;
  Total_Recoveries : option Z;
  Active_Cases : option Z
}.

(** Lines 165-173, before the values are formatted. *)
Definition main_metrics (state_data : StateData) : Metrics :=
  {| Total_Cases := Series_max (col_Confirmed state_data);
     Total_Deaths := Series_max (col_Deaths state_data);
     Total_Recoveries := Series_max (col_Cured state_data);
     Active_Cases :=
       nan_sub (nan_sub (Series_max (col_Confirmed state_data))
                        (Series_max (col_Cured state_data)))
               (Series_max (col_Deaths state_data)) |}.

(** Boolean indexing [col[mask]]. *)
Fixpoint select {A} (mask : list bool) (l : list A) : list A :=
  match mask, l with
  | b :: mask', x :: l' => if b then x :: select mask' l' else select mask' l'
  | _, _ => []
  end.

(** Line 181: [state_data[state_data['Date'] == state_data['Date'].max()]]. *)
Definition latest_data (state_data : StateData) : StateData :=
  let top := Series_max (col_Date state_data) in
  let mask := map (λ d, bool_decide (Some d = top)) (col_Date state_data) in
  {| col_Date := select mask (col_Date state_data);
     col_Confirmed := select mask (col_Confirmed state_data);
     col_Deaths := select mask (col_Deaths state_data);
     col_Cured := select mask (col_Cured state_data);
     col_New_Cases := select mask (col_New_Cases state_data);
     col_New_Deaths := select mask (col_New_Deaths state_data);
     col_New_Recoveries := select mask (col_New_Recoveries state_data);
     col_New_Cases_MA := select mask (col_New_Cases_MA state_data);
     col_New_Deaths_MA := select mask (col_New_Deaths_MA state_data);
     col_New_Recoveries_MA := select mask (col_New_Recoveries_MA state_data) |}.

(** ** [preprocess_data] on frames held in a store

    The frames of the program are objects: [state_data[...] = ...] updates
    the frame that [state_data] refers to, every other operation of
    [preprocess_data] builds a new frame. The store maps the identity of a
    frame to its columns. *)

Inductive column :=
  | DatetimeCol (l : list Z)
  | ObjectCol (l : list string)
  | NumCol (l : list Z)
  | NaNCol (l : list (option Z))
  | MeanCol (l : list (option Q)).

Abbreviation DataFrame := (gmap string column).
Abbreviation store := (gmap nat (gmap string column)).

Definition M (A : Type) : Type := store → result (A * store).

Global Instance M_ret : MRet M := λ A a σ, Ok (a, σ).

Global Instance M_bind : MBind M := λ A B k m σ,
  match m σ with
  | Ok (a, σ') => k a σ'
  | Raise e => Raise e
  end.

Definition lift {A} (r : result A) : M A :=
  λ σ, match r with
       | Ok a => Ok (a, σ)
       | Raise e => Raise e
       end.

(** A new frame object. *)
Definition alloc (df : DataFrame) : M nat :=
  λ σ, let r := fresh (dom σ) in Ok (r, <[r := df]> σ).

Definition frame_at (σ : store) (r : nat) : DataFrame := default ∅ (σ !! r).

(** [df[col]] *)
Definition getitem (r : nat) (col : string) : M column :=
  λ σ, match frame_at σ r !! col with
       | Some c => Ok (c, σ)
       | None => Raise (KeyError col)
       end.

(** [df[col] = c], in place. *)
Definition setitem (r : nat) (col : string) (c : column) : M unit :=
  λ σ, Ok ((), <[r := <[col := c]> (frame_at σ r)]> σ).

Definition as_datetime (c : column) : result (list Z) :=
  match c with DatetimeCol l => Ok l | _ => Raise TypeError end.

Definition as_object (c : column) : result (list string) :=
  match c with ObjectCol l => Ok l | _ => Raise TypeError end.

Definition as_num (c : column) : result (list Z) :=
  match c with NumCol l => Ok l | _ => Raise TypeError end.

Definition col_diff (c : column) : result column :=
  match c with NumCol l => Ok (NaNCol (diff l)) | _ => Raise TypeError end.

Definition col_fillna (v : Z) (c : column) : result column :=
  match c with
  | NumCol l => Ok (NumCol l)
  | NaNCol l => Ok (NumCol (fillna v l))
  | _ => Raise TypeError
  end.

Definition col_clip_lower (lo : Z) (c : column) : result column :=
  match c with
  | NumCol l => Ok (NumCol (clip_lower lo l))
  | _ => Raise TypeError
  end.

Definition col_rolling_mean (w : nat) (c : column) : result column :=
  match c with
  | NumCol l => Ok (MeanCol (rolling_mean w l))
  | _ => Raise TypeError
  end.

Definition col_select (mask : list bool) (c : column) : column :=
  match c with
  | DatetimeCol l => DatetimeCol (select mask l)
  | ObjectCol l => ObjectCol (select mask l)
  | NumCol l => NumCol (select mask l)
  | NaNCol l => NaNCol (select mask l)
  | MeanCol l => MeanCol (select mask l)
  end.

Fixpoint zip_rows (dates : list Z) (states : list string)
    (confirmed deaths cured : list Z) : list row :=
  match dates, states, confirmed, deaths, cured with
  | d :: dates', s :: states', c :: confirmed', x :: deaths', y :: cured' =>
      {| Date := d; State := s; Confirmed := c; Deaths := x; Cured := y |}
        :: zip_rows dates' states' confirmed' deaths' cured'
  | _, _, _, _, _ => []
  end.

Definition frame_column (df : DataFrame) (col : string) : result column :=
  match df !! col with
  | Some c => Ok c
  | None => Raise (KeyError col)
  end.

(** The rows of a frame with the columns of [cases_df]. *)
Definition rows_of_frame (df : DataFrame) : result (list row) :=
  rbind (rbind (frame_column df "Date") as_datetime) (λ dates,
  rbind (rbind (frame_column df "State/UnionTerritory") as_object) (λ states,
  rbind (rbind (frame_column df "Confirmed") as_num) (λ confirmed,
  rbind (rbind (frame_column df "Deaths") as_num) (λ deaths,
  rbind (rbind (frame_column df "Cured") as_num) (λ cured,
  Ok (zip_rows dates states confirmed deaths cured)))))).

Definition frame_of_rows (df : list row) : DataFrame :=
  <["Date" := DatetimeCol (map Date df)]>
  (<["State/UnionTerritory" := ObjectCol (map State df)]>
  (<["Confirmed" := NumCol (map Confirmed df)]>
  (<["Deaths" := NumCol (map Deaths df)]>
  (<["Cured" := NumCol (map Cured df)]> ∅)))).

Definition frame_of_groups (gs : list group) : DataFrame :=
  <["Date" := DatetimeCol (map g_Date gs)]>
  (<["Confirmed" := NumCol (map g_Confirmed gs)]>
  (<["Deaths" := NumCol (map g_Deaths gs)]>
  (<["Cured" := NumCol (map g_Cured gs)]> ∅))).

(** [df.groupby('Date').agg({...: 'sum'}).reset_index()]: a new frame. *)
Definition groupby_agg (r : nat) : M nat :=
  λ σ, match rows_of_frame (frame_at σ r) with
       | Ok rows => alloc (frame_of_groups (groupby_Date_sum rows)) σ
       | Raise e => Raise e
       end.

(** [df[mask]]: a new frame. *)
Definition getitem_mask (r : nat) (mask : list bool) : M nat :=
  λ σ, alloc (col_select mask <$> frame_at σ r) σ.

(** [df[df['State/UnionTerritory'] == selected_state]] *)
Definition getitem_mask_State (r : nat) (selected_state : string) : M nat :=
  c ← getitem r "State/UnionTerritory";
  states ← lift (as_object c);
  getitem_mask r (map (λ s, bool_decide (s = selected_state)) states).

(** [df.copy()]: a new frame. *)
Definition copy (r : nat) : M nat :=
  λ σ, alloc (frame_at σ r) σ.

(** [state_data[new] = state_data[old].diff().fillna(0)] *)
Definition set_diff (state_data : nat) (new old : string) : M unit :=
  c ← getitem state_data old;
  d ← lift (rbind (col_diff c) (col_fillna 0));
  setitem state_data new d.

(** [state_data[col] = state_data[col].clip(lower=0)] *)
Definition set_clip (state_data : nat) (col : string) : M unit :=
  c ← getitem state_data col;
  d ← lift (col_clip_lower 0 c);
  setitem state_data col d.

(** [state_data[new] = state_data[old].rolling(window=7).mean()] *)
Definition set_rolling (state_data : nat) (new old : string) : M unit :=
  c ← getitem state_data old;
  d ← lift (col_rolling_mean 7 c);
  setitem state_data new d.

(** Lines 44-58: the frame that [state_data] is bound to. *)
Definition select_state (cases_df : nat) (selected_state : string) : M nat :=
  if bool_decide (selected_state = All_India)
  then groupby_agg cases_df
  else (filtered ← getitem_mask_State cases_df selected_state;
        state_data ← copy filtered;
        groupby_agg state_data).

(** Lines 60-75: the derived columns, written into [state_data]. *)
Definition derive_columns (state_data : nat) : M nat :=
  set_diff state_data "New Cases" "Confirmed" ;;
  set_diff state_data "New Deaths" "Deaths" ;;
  set_diff state_data "New Recoveries" "Cured" ;;
  set_clip state_data "New Cases" ;;
  set_clip state_data "New Deaths" ;;
  set_clip state_data "New Recoveries" ;;
  set_rolling state_data "New Cases MA" "New Cases" ;;
  set_rolling state_data "New Deaths MA" "New Deaths" ;;
  set_rolling state_data "New Recoveries MA" "New Recoveries" ;;
  mret state_data.

Definition preprocess_data_st (cases_df : nat) (selected_state : string)
    : M nat :=
  state_data ← select_state cases_df selected_state;
  derive_columns state_data.

(** The frame with the columns of a derived series. *)
Definition frame_of_StateData (sd : StateData) : DataFrame :=
  <["Date" := DatetimeCol (col_Date sd)]>
  (<["Confirmed" := NumCol (col_Confirmed sd)]>
  (<["Deaths" := NumCol (col_Deaths sd)]>
  (<["Cured" := NumCol (col_Cured sd)]>
  (<["New Cases" := NumCol (col_New_Cases sd)]>
  (<["New Deaths" := NumCol (col_New_Deaths sd)]>
  (<["New Recoveries" := NumCol (col_New_Recoveries sd)]>
  (<["New Cases MA" := MeanCol (col_New_Cases_MA sd)]>
  (<["New Deaths MA" := MeanCol (col_New_Deaths_MA sd)]>
  (<["New Recoveries MA" := MeanCol (col_New_Recoveries_MA sd)]> ∅))))))))).

(** ** The controls and the figure of [main]

    [st.selectbox] hands back one of its options; the figure of
    [create_visualizations] is the list of its traces and its layout. *)

(** [Series.unique()]: the distinct values, in the order of their first
    appearance. *)
Fixpoint unique (l : list string) : list string :=
  match l with
  | [] => []
  | x :: l' => x :: filter (λ y, y ≠ x) (unique l')
  end.

(** [sorted] on strings: ascending in the order of the code points. *)
Fixpoint insert_sorted (x : string) (l : list string) : list string :=
  match l with
  | [] => [x]
  | y :: l' => if String.leb x y then x :: l else y :: insert_sorted x l'
  end.

Definition sorted (l : list string) : list string :=
  foldr insert_sorted [] l.

(** Line 154. *)
Definition state_options (cases_df : list row) : list string :=
  All_India :: sorted (unique (map State cases_df)).

(** [go.Scatter(x=..., y=..., name=..., line=dict(color=..., width=...))]
    added at [row], [col]. *)
Record trace := {
  t_x : column;
  t_y : column;
  t_name : string;
  t_color : string;
  t_width : option Z;
  t_row : Z;
  t_col : Z
}.

Record figure := {
  fig_subplot_titles : list string;
  fig_traces : list trace;
  fig_height : Z;
  fig_width : Z;
  fig_title : string;
  fig_showlegend : bool;
  fig_hovermode : string;
  fig_yaxis_titles : list (Z * Z * string)
}.

Definition column_length (c : column) : nat :=
  match c with
  | DatetimeCol l => length l
  | ObjectCol l => length l
  | NumCol l => length l
  | NaNCol l => length l
  | MeanCol l => length l
  end.

(** Lines 78-141. *)
Definition create_visualizations (state_data : StateData)
    (selected_state : string) : figure :=
  let date := DatetimeCol (col_Date state_data) in
  {| fig_subplot_titles :=
       [ "Daily New Cases"; "Daily Deaths"; "Daily Recoveries";
         "Total Cases Over Time" ];
     fig_traces :=
       [ {| t_x := date; t_y := NumCol (col_New_Cases state_data);
            t_name := "Daily Cases"; t_color := "blue"; t_width := Some 1;
            t_row := 1; t_col := 1 |};
         {| t_x := date; t_y := MeanCol (col_New_Cases_MA state_data);
            t_name := "7-day Average"; t_color := "red"; t_width := Some 2;
            t_row := 1; t_col := 1 |};
         {| t_x := date; t_y := NumCol (col_New_Deaths state_data);
            t_name := "Daily Deaths"; t_color := "red"; t_width := Some 1;
            t_row := 1; t_col := 2 |};
         {| t_x := date; t_y := MeanCol (col_New_Deaths_MA state_data);
            t_name := "7-day Average"; t_color := "black"; t_width := Some 2;
            t_row := 1; t_col := 2 |};
         {| t_x := date; t_y := NumCol (col_New_Recoveries state_data);
            t_name := "Daily Recoveries"; t_color := "green";
            t_width := Some 1; t_row := 2; t_col := 1 |};
         {| t_x := date; t_y := MeanCol (col_New_Recoveries_MA state_data);
            t_name := "7-day Average"; t_color := "darkgreen";
            t_width := Some 2; t_row := 2; t_col := 1 |};
         {| t_x := date; t_y := NumCol (col_Confirmed state_data);
            t_name := "Total Cases"; t_color := "purple"; t_width := None;
            t_row := 2; t_col := 2 |} ];
     fig_height := 1000;
     fig_width := 1500;
     fig_title := String.append "COVID-19 Trends in " selected_state;
     fig_showlegend := true;
     fig_hovermode := "x unified";
     fig_yaxis_titles :=
       [ (1, 1, "Number of Cases"); (1, 2, "Number of Deaths");
         (2, 1, "Number of Recoveries"); (2, 2, "Total Cases") ] |}.

(** The values of a trace that are not [NaN]; a line is drawn through
    them. *)
Definition plotted_points (c : column) : nat :=
  match c with
  | NaNCol l => length (filter is_Some l)
  | MeanCol l => length (filter is_Some l)
  | _ => column_length c
  end.

(** ** Two scalar parsers

    ISO dates and integer literals, the formats of the data set; they
    instantiate the parsers of pandas in the examples. *)

Definition digit (c : ascii) : option Z :=
  let n := nat_of_ascii c in
  if ((48 <=? n) && (n <=? 57))%nat then Some (Z.of_nat (n - 48)) else None.

Fixpoint digits (acc : Z) (s : list ascii) : option Z :=
  match s with
  | [] => Some acc
  | c :: s' =>
      match digit c with
      | Some d => digits (10 * acc + d) s'
      | None => None
      end
  end.

Definition number (s : list ascii) : option Z :=
  match s with
  | [] => None
  | _ => digits 0 s
  end.

Definition int_literal (s : string) : option Z :=
  match String.list_ascii_of_string s with
  | "-"%char :: s' => Z.opp <$> number s'
  | "+"%char :: s' => number s'
  | s' => number s'
  end.

Definition leap_year (y : Z) : bool :=
  ((y mod 4 =? 0) && negb (y mod 100 =? 0)) || (y mod 400 =? 0).

Definition days_in_month (y m : Z) : Z :=
  if m =? 2 then (if leap_year y then 29 else 28)
  else if (m =? 4) || (m =? 6) || (m =? 9) || (m =? 11) then 30
  else 31.

(** ["YYYY-MM-DD"], as the number [YYYYMMDD]. *)
Definition iso_date (s : string) : option Z :=
  match String.list_ascii_of_string s with
  | [y1; y2; y3; y4; "-"%char; m1; m2; "-"%char; d1; d2] =>
      y ← number [y1; y2; y3; y4];
      m ← number [m1; m2];
      d ← number [d1; d2];
      if (1 <=? m) && (m <=? 12) && (1 <=? d) && (d <=? days_in_month y m)
      then Some (y * 10000 + m * 100 + d)
      else None
  | _ => None
  end.

(** ** Vocabulary of the properties *)

(** A table in ascending order of its dates. *)
Definition sorted_by_Date (l : list row) : Prop :=
  Sorted Z.le (map Date l).


(** The sum of a column over the rows of one date. *)
Definition date_sum (f : row → Z) (d : Z) (df : list row) : Z :=
  sumZ (map f (filter (λ r, Date r = d) df)).

(** The same sum over the groups of a grouped result. *)
Definition group_sum (f : group → Z) (d : Z) (gs : list group) : Z :=
  sumZ (map f (filter (λ g, g_Date g = d) gs)).

(** A column of the rows and the column of the groups it is summed into. *)
Inductive counter_column : (row → Z) → (group → Z) → Prop :=
  | counter_Confirmed : counter_column Confirmed g_Confirmed
  | counter_Deaths : counter_column Deaths g_Deaths
  | counter_Cured : counter_column Cured g_Cured.

(** The grouped frame of lines 44-58. *)
Definition state_groups (cases_df : list row) (selected_state : string)
    : list group :=
  if bool_decide (selected_state = All_India)
  then groupby_Date_sum cases_df
  else groupby_Date_sum (filter (λ r, State r = selected_state) cases_df).

(** [m] is the greatest value of a column. *)
Definition is_max (l : list Z) (m : Z) : Prop :=
  m ∈ l ∧ Forall (λ x, x ≤ m) l.


(** The empty derived frame. *)
Definition empty_StateData : StateData :=
  {| col_Date := []; col_Confirmed := []; col_Deaths := []; col_Cured := [];
     col_New_Cases := []; col_New_Deaths := []; col_New_Recoveries := [];
     col_New_Cases_MA := []; col_New_Deaths_MA := [];
     col_New_Recoveries_MA := [] |}.

(** A smoothed value is absent or not negative. *)
Definition nonneg_or_NaN (o : option Q) : Prop :=
  match o with
  | Some q => (0 <= q)%Q
  | None => True
  end.

(** Ascending in the order of [String.leb]. *)
Definition string_le (a b : string) : Prop := String.leb a b = true.


(** ** Example tables *)

(** Two regions reported on the same two dates. *)
Definition example_AB : list row :=
  [ {| Date := 20200130; State := "A"; Confirmed := 10;
       Deaths := 0; Cured := 1 |};
    {| Date := 20200130; State := "B"; Confirmed := 5;
       Deaths := 1; Cured := 2 |};
    {| Date := 20200131; State := "A"; Confirmed := 20;
       Deaths := 0; Cured := 3 |};
    {| Date := 20200131; State := "B"; Confirmed := 15;
       Deaths := 2; Cured := 4 |} ].


(** One region whose confirmed count is corrected downwards on the second
    day. *)
Definition example_correction : list row :=
  [ {| Date := 20200130; State := "Kerala"; Confirmed := 10;
       Deaths := 1; Cured := 2 |};
    {| Date := 20200131; State := "Kerala"; Confirmed := 8;
       Deaths := 1; Cured := 5 |} ].

(** Two raw rows with one key, the later one with other counters. *)
Definition example_raw_duplicate : list raw_row :=
  [ {| raw_Date := "2020-01-30"; raw_State := "Kerala";
       raw_Confirmed := Num 1; raw_Deaths := Num 0; raw_Cured := Num 0 |};
    {| raw_Date := "2020-01-31"; raw_State := "Kerala";
       raw_Confirmed := Num 2; raw_Deaths := Num 0; raw_Cured := Num 0 |};
    {| raw_Date := "2020-01-30"; raw_State := " Kerala ";
       raw_Confirmed := Str "3"; raw_Deaths := NaN; raw_Cured := Str "1" |} ].

(** * Properties *)

(** ** The loader *)

Lemma rbind_Ok {A B} (m : result A) (k : A → result B) b :
  rbind m k = Ok b ↔ ∃ a, m = Ok a ∧ k a = Ok b.
Proof.
  destruct m as [a|e]; simpl; split.
  - eauto.
  - by intros (a' & [= <-] & ?).
  - done.
  - by intros (? & ? & ?).
Qed.

(** A successful [rmapM] is the pointwise image. *)
Lemma rmapM_Ok {A B} (f : A → result B) l l' :
  rmapM f l = Ok l' ↔ Forall2 (λ x y, f x = Ok y) l l'.
Proof.
  revert l'. induction l as [|x l IH]; intros l'; simpl.
  - split; [intros [= <-]; constructor | by inversion 1].
  - rewrite rbind_Ok. split.
    + intros (y & Hy & Hk). apply rbind_Ok in Hk as (ys & Hys & [= <-]).
      constructor; [done | by apply IH].
    + inversion 1 as [|? y ? ys Hy Hys]; subst.
      exists y. split; [done |]. apply rbind_Ok. exists ys.
      split; [by apply IH | done].
Qed.


Section LoaderFacts.

Variables to_datetime to_numeric : string → option Z.



End LoaderFacts.

(** *** [drop_duplicates] *)

Lemma filter_key_nil k (l : list row) :
  k ∉ map key l → filter (λ r, key r = k) l = [].
Proof.
  intros Hk. induction l as [|r l IH]; [done |].
  rewrite filter_cons. simpl in Hk. rewrite not_elem_of_cons in Hk.
  destruct Hk as [Hne Hk]. rewrite decide_False by done. auto.
Qed.

Lemma filter_key_not_nil k (l : list row) :
  k ∈ map key l → filter (λ r, key r = k) l ≠ [].
Proof.
  intros (r & -> & Hr)%list_elem_of_fmap.
  intros Hnil. assert (r ∈ filter (λ r', key r' = key r) l) as Hin.
  { by apply list_elem_of_filter. }
  rewrite Hnil in Hin. by inversion Hin.
Qed.

(** Of the rows with one key, [drop_duplicates] keeps the last one only. *)
Lemma drop_duplicates_filter k l :
  filter (λ r, key r = k) (drop_duplicates l)
  = option_list (last (filter (λ r, key r = k) l)).
Proof.
  induction l as [|r l IH]; [done |].
  simpl. rewrite (filter_cons _ r l). case_bool_decide as Hdup.
  - rewrite IH. case_decide as Hk; [|done].
    subst k. apply filter_key_not_nil in Hdup.
    destruct (filter (λ r', key r' = key r) l) eqn:Hf; [done |].
    by rewrite last_cons_cons.
  - rewrite filter_cons. case_decide as Hk; [|done].
    subst k. rewrite IH. by rewrite filter_key_nil.
Qed.

(** *** [sort_values] *)

Lemma insert_by_Date_Permutation r l : insert_by_Date r l ≡ₚ r :: l.
Proof.
  induction l as [|x l IH]; [done |].
  simpl. case_match; [done |]. rewrite IH. apply Permutation_swap.
Qed.

Lemma sort_values_Permutation l : sort_values l ≡ₚ l.
Proof.
  induction l as [|r l IH]; [done |].
  simpl. rewrite insert_by_Date_Permutation. by rewrite IH.
Qed.

Lemma insert_by_Date_sorted r l :
  sorted_by_Date l → sorted_by_Date (insert_by_Date r l).
Proof.
  unfold sorted_by_Date. induction l as [|x l IH]; intros Hs; simpl.
  - repeat constructor.
  - destruct (Z.leb_spec (Date r) (Date x)).
    + simpl. constructor; [done | by constructor].
    + simpl. inversion Hs as [|?? Hs' Hhd]; subst.
      constructor; [by apply IH |].
      destruct l as [|y l]; simpl.
      * constructor. lia.
      * inversion Hhd; subst. destruct (Z.leb_spec (Date r) (Date y));
          constructor; lia.
Qed.

Lemma sort_values_sorted l : sorted_by_Date (sort_values l).
Proof.
  induction l as [|r l IH]; simpl.
  - constructor.
  - by apply insert_by_Date_sorted.
Qed.

Lemma load_data_Ok to_datetime to_numeric raw T :
  load_data to_datetime to_numeric raw = Ok T ↔
  ∃ cleaned, Forall2 (λ r x, clean_row to_datetime to_numeric r = Ok x)
               raw cleaned
             ∧ T = sort_values (drop_duplicates cleaned).
Proof.
  unfold load_data, clean_rows. rewrite rbind_Ok.
  split; intros (cleaned & H1 & H2); exists cleaned.
  - apply rmapM_Ok in H1. by injection H2 as <-.
  - apply rmapM_Ok in H1. by subst.
Qed.

(** After de-duplication and sorting the table holds, for each key, the
    last of the rows with that key only. *)
Lemma sort_drop_duplicates_filter cleaned k :
  filter (λ r, key r = k) (sort_values (drop_duplicates cleaned))
  ≡ₚ option_list (last (filter (λ r, key r = k) cleaned)).
Proof.
  rewrite sort_values_Permutation. by rewrite drop_duplicates_filter.
Qed.

(** The last element of a list that satisfies a predicate. *)
Lemma last_filter_lookup {A} (P : A → Prop) `{!∀ x, Decision (P x)}
    (l : list A) j y :
  l !! j = Some y → P y →
  ∃ n z, l !! n = Some z ∧ P z ∧ (j ≤ n)%nat
         ∧ (∀ m w, (n < m)%nat → l !! m = Some w → ¬ P w)
         ∧ last (filter P l) = Some z.
Proof.
  revert j y. induction l as [|a l IH] using rev_ind; intros j y Hj Py.
  { by rewrite lookup_nil in Hj. }
  rewrite filter_app, filter_cons, filter_nil.
  destruct (decide (P a)) as [Pa|NPa].
  - exists (length l), a. rewrite last_snoc.
    split_and!; [by rewrite list_lookup_middle | done | | | done].
    + apply lookup_lt_Some in Hj. rewrite length_app in Hj. simpl in Hj. lia.
    + intros m w Hm Hw. apply lookup_lt_Some in Hw.
      rewrite length_app in Hw. simpl in Hw. lia.
  - rewrite app_nil_r.
    assert (j < length l)%nat as Hlt.
    { destruct (decide (j < length l)%nat) as [|Hge]; [done |].
      assert (j = length l) as ->.
      { apply lookup_lt_Some in Hj. rewrite length_app in Hj.
        simpl in Hj. lia. }
      rewrite list_lookup_middle in Hj by done. by injection Hj as ->. }
    rewrite lookup_app_l in Hj by done.
    destruct (IH j y Hj Py) as (n & z & Hn & Pz & Hjn & Hlast & Hz).
    exists n, z. split_and!; [| done | done | | done].
    + rewrite lookup_app_l; [done |]. by eapply lookup_lt_Some.
    + intros m w Hm Hw. destruct (decide (m < length l)%nat) as [Hml|Hml].
      * rewrite lookup_app_l in Hw by done. by eapply Hlast.
      * assert (m = length l) as ->.
        { apply lookup_lt_Some in Hw. rewrite length_app in Hw.
          simpl in Hw. lia. }
        rewrite list_lookup_middle in Hw by done. by injection Hw as <-.
Qed.

(** *** Claims about the loader *)






(** C7. When two raw rows clean to the same (date, region) key, the table
    has exactly one row with that key, and it is the cleaned form of the
    last raw row with that key. *)
Theorem load_data_keeps_last_duplicate to_datetime to_numeric
    raw T i j ri rj x y :
  load_data to_datetime to_numeric raw = Ok T →
  (i < j)%nat → raw !! i = Some ri → raw !! j = Some rj →
  clean_row to_datetime to_numeric ri = Ok x →
  clean_row to_datetime to_numeric rj = Ok y →
  key x = key y →
  ∃ n rn z,
    raw !! n = Some rn ∧ clean_row to_datetime to_numeric rn = Ok z
    ∧ key z = key x ∧ (j ≤ n)%nat
    ∧ (∀ m rm w, (n < m)%nat → raw !! m = Some rm →
         clean_row to_datetime to_numeric rm = Ok w → key w ≠ key x)
    ∧ filter (λ r, key r = key x) T = [z].
Proof.
  intros (cleaned & Hcl & ->)%load_data_Ok Hij Hi Hj Hx Hy Hkey.
  assert (cleaned !! j = Some y) as Hcj.
  { destruct (Forall2_lookup_l _ _ _ _ _ Hcl Hj) as (y' & Hy' & Hyy).
    congruence. }
  destruct (last_filter_lookup (λ r, key r = key x) cleaned j y Hcj)
    as (n & z & Hn & Hz & Hjn & Hlast & Hlz); [done |].
  destruct (Forall2_lookup_r _ _ _ _ _ Hcl Hn) as (rn & Hrn & Hrz).
  exists n, rn, z. split_and!; [done | done | done | done | |].
  - intros m rm w Hm Hrm Hw.
    destruct (Forall2_lookup_l _ _ _ _ _ Hcl Hrm) as (w' & Hw' & Hww).
    assert (w' = w) as -> by congruence. by eapply Hlast.
  - apply Permutation_singleton_r.
    rewrite sort_drop_duplicates_filter. by rewrite Hlz.
Qed.

Lemma load_data_keeps_last_duplicate_witness :
  ∃ n rn z,
    example_raw_duplicate !! n = Some rn
    ∧ clean_row iso_date int_literal rn = Ok z
    ∧ key z = (20200130, "Kerala") ∧ (2 ≤ n)%nat
    ∧ (∀ m rm w, (n < m)%nat → example_raw_duplicate !! m = Some rm →
         clean_row iso_date int_literal rm = Ok w →
         key w ≠ (20200130, "Kerala"))
    ∧ filter (λ r, key r = (20200130, "Kerala"))
        [ {| Date := 20200130; State := "Kerala"; Confirmed := 3;
             Deaths := 0; Cured := 1 |};
          {| Date := 20200131; State := "Kerala"; Confirmed := 2;
             Deaths := 0; Cured := 0 |} ] = [z].
Proof.
  eapply (load_data_keeps_last_duplicate iso_date int_literal
            example_raw_duplicate _ 0 2 _ _
            {| Date := 20200130; State := "Kerala"; Confirmed := 1;
               Deaths := 0; Cured := 0 |}
            {| Date := 20200130; State := "Kerala"; Confirmed := 3;
               Deaths := 0; Cured := 1 |});
    [reflexivity | lia | reflexivity | reflexivity | reflexivity
    | reflexivity | reflexivity].
Defined.

(** ** The aggregator *)

(** *** Grouping by date *)

Lemma group_sum_cons f d g gs :
  group_sum f d (g :: gs)
  = (if decide (g_Date g = d) then f g else 0) + group_sum f d gs.
Proof.
  unfold group_sum. rewrite filter_cons. by case_decide.
Qed.

Lemma date_sum_cons f d r df :
  date_sum f d (r :: df)
  = (if decide (Date r = d) then f r else 0) + date_sum f d df.
Proof.
  unfold date_sum. rewrite filter_cons. by case_decide.
Qed.

(** Adding a row adds its counters to the sum of its date. *)
Lemma add_to_groups_sum f f' d r gs :
  counter_column f f' →
  group_sum f' d (add_to_groups r gs)
  = group_sum f' d gs + (if decide (Date r = d) then f r else 0).
Proof.
  intros Hf. induction gs as [|g gs IH]; simpl.
  - rewrite group_sum_cons. simpl. unfold group_sum. simpl.
    destruct Hf; case_decide; simpl; lia.
  - destruct (Z.ltb_spec (Date r) (g_Date g)).
    + rewrite (group_sum_cons _ _ (group_of_row r)). simpl.
      destruct Hf; case_decide; simpl; lia.
    + destruct (Z.eqb_spec (Date r) (g_Date g)) as [Heq|Hne].
      * rewrite !group_sum_cons. simpl. rewrite Heq. clear IH.
        destruct Hf; case_decide; simpl; lia.
      * rewrite !group_sum_cons, IH. lia.
Qed.

Lemma foldl_add_to_groups_sum f f' d df gs :
  counter_column f f' →
  group_sum f' d (foldl (λ gs r, add_to_groups r gs) gs df)
  = group_sum f' d gs + date_sum f d df.
Proof.
  intros Hf. revert gs. induction df as [|r df IH]; intros gs; simpl.
  - unfold date_sum. simpl. lia.
  - rewrite IH, (add_to_groups_sum f f') by done.
    rewrite date_sum_cons. lia.
Qed.

Lemma groupby_Date_sum_sum f f' d df :
  counter_column f f' →
  group_sum f' d (groupby_Date_sum df) = date_sum f d df.
Proof.
  intros Hf. unfold groupby_Date_sum.
  by rewrite (foldl_add_to_groups_sum f f').
Qed.

(** The dates of the grouped result are the dates of the rows. *)
Lemma add_to_groups_dates d r gs :
  d ∈ map g_Date (add_to_groups r gs) ↔ d = Date r ∨ d ∈ map g_Date gs.
Proof.
  induction gs as [|g gs IH]; simpl.
  - by rewrite elem_of_cons.
  - destruct (Z.ltb_spec (Date r) (g_Date g)).
    + simpl. by rewrite !elem_of_cons.
    + destruct (Z.eqb_spec (Date r) (g_Date g)) as [Heq|Hne]; simpl.
      * rewrite !elem_of_cons, Heq. tauto.
      * rewrite !elem_of_cons, IH. tauto.
Qed.

Lemma foldl_add_to_groups_dates d df gs :
  d ∈ map g_Date (foldl (λ gs r, add_to_groups r gs) gs df)
  ↔ d ∈ map g_Date gs ∨ d ∈ map Date df.
Proof.
  revert gs. induction df as [|r df IH]; intros gs; simpl.
  - rewrite elem_of_nil. tauto.
  - rewrite IH, add_to_groups_dates, elem_of_cons. tauto.
Qed.

Lemma groupby_Date_sum_dates d df :
  d ∈ map g_Date (groupby_Date_sum df) ↔ d ∈ map Date df.
Proof.
  unfold groupby_Date_sum. rewrite foldl_add_to_groups_dates. simpl.
  rewrite elem_of_nil. tauto.
Qed.

(** The grouped result is in strictly ascending order of its dates. *)
Lemma add_to_groups_sorted r gs :
  StronglySorted Z.lt (map g_Date gs) →
  StronglySorted Z.lt (map g_Date (add_to_groups r gs)).
Proof.
  induction gs as [|g gs IH]; intros Hs; simpl.
  - repeat constructor.
  - inversion Hs as [|?? Hs' Hall]; subst.
    destruct (Z.ltb_spec (Date r) (g_Date g)).
    + simpl. constructor; [done |]. constructor; [done |].
      eapply Forall_impl; [done |]. simpl. lia.
    + destruct (Z.eqb_spec (Date r) (g_Date g)) as [Heq|Hne]; simpl.
      * by constructor.
      * constructor; [by apply IH |].
        apply Forall_forall. intros d Hd.
        apply add_to_groups_dates in Hd as [->|Hd]; [lia |].
        by eapply Forall_forall in Hall.
Qed.

Lemma groupby_Date_sum_sorted df :
  StronglySorted Z.lt (map g_Date (groupby_Date_sum df)).
Proof.
  unfold groupby_Date_sum.
  assert (StronglySorted Z.lt (map g_Date [])) as Hnil by constructor.
  revert Hnil. generalize (@nil group).
  induction df as [|r df IH]; intros gs Hs; simpl; [done |].
  apply IH. by apply add_to_groups_sorted.
Qed.

Lemma filter_none {A} (P : A → Prop) `{!∀ x, Decision (P x)} (l : list A) :
  Forall (λ x, ¬ P x) l → filter P l = [].
Proof.
  induction 1 as [|x l Hx _ IH]; [done |].
  by rewrite filter_cons_False.
Qed.

(** In a result with strictly ascending dates the sum over the groups of a
    date is the entry of its only group. *)
Lemma group_sum_sorted f gs i g :
  StronglySorted Z.lt (map g_Date gs) → gs !! i = Some g →
  group_sum f (g_Date g) gs = f g.
Proof.
  revert i. induction gs as [|g0 gs IH]; intros i Hs Hi; [done |].
  inversion Hs as [|?? Hs' Hall]; subst. rewrite group_sum_cons.
  destruct i as [|i]; simpl in Hi.
  - injection Hi as ->. rewrite decide_True by done.
    unfold group_sum. rewrite filter_none; [simpl; lia |].
    apply Forall_forall. intros g' Hg' Heq.
    eapply Forall_forall in Hall; [| apply list_elem_of_fmap; eauto]. lia.
  - rewrite decide_False.
    + rewrite (IH i) by done. lia.
    + eapply Forall_forall in Hall;
        [| apply list_elem_of_fmap; eexists; split; [done |];
           by eapply list_elem_of_lookup_2].
      lia.
Qed.

(** Row [i] of the grouped result holds the sums over the rows of its
    date. *)
Lemma groupby_Date_sum_lookup f f' df i g :
  counter_column f f' → groupby_Date_sum df !! i = Some g →
  f' g = date_sum f (g_Date g) df.
Proof.
  intros Hf Hi.
  rewrite <- (groupby_Date_sum_sum f f') by done.
  symmetry. eapply group_sum_sorted; [apply groupby_Date_sum_sorted | done].
Qed.

(** *** Daily deltas *)

Lemma diff_from_length prev l : length (diff_from prev l) = length l.
Proof. revert prev. induction l; intros; simpl; auto. Qed.

Lemma daily_new_length col : length (daily_new col) = length col.
Proof.
  unfold daily_new, clip_lower, fillna. rewrite !length_map.
  destruct col; simpl; [done |]. by rewrite diff_from_length.
Qed.



(** The delta of the first row. *)
Lemma daily_new_lookup_0 col x :
  col !! 0%nat = Some x → daily_new col !! 0%nat = Some 0.
Proof. by destruct col. Qed.

Lemma daily_new_nonneg col : Forall (λ x, 0 ≤ x) (daily_new col).
Proof.
  unfold daily_new, clip_lower. apply Forall_forall.
  intros x (y & -> & _)%list_elem_of_fmap. lia.
Qed.

(** *** Rolling mean *)

Lemma tail_drop {A} (l : list A) n : tail (drop n l) = drop (S n) l.
Proof.
  revert n. induction l as [|x l IH]; intros [|n]; simpl; done.
Qed.

(** The window that [rolling_mean_from] carries holds the last [w] rows
    seen. *)
Lemma rolling_window_step w (pre : list Z) x :
  (0 < w)%nat →
  (if (length (drop (length pre - w) pre) <? w)%nat
   then drop (length pre - w) pre
   else tail (drop (length pre - w) pre)) ++ [x]
  = drop (length (pre ++ [x]) - w) (pre ++ [x]).
Proof.
  intros Hw. rewrite length_drop, length_app. simpl.
  destruct (Nat.ltb_spec (length pre - (length pre - w)) w) as [Hlt|Hge].
  - assert (length pre < w)%nat by lia.
    replace (length pre - w)%nat with 0%nat by lia.
    replace (length pre + 1 - w)%nat with 0%nat by lia. done.
  - assert (w ≤ length pre)%nat by lia.
    rewrite tail_drop.
    replace (length pre + 1 - w)%nat with (S (length pre - w)) by lia.
    rewrite drop_app_le; [done |]. lia.
Qed.

Lemma rolling_mean_from_lookup w l :
  (0 < w)%nat →
  ∀ pre i, (i < length l)%nat →
  rolling_mean_from w (drop (length pre - w) pre) l !! i
  = Some (if (S (length pre + i) <? w)%nat then None
          else Some (mean (take w (drop (S (length pre + i) - w)
                                     (pre ++ l))))).
Proof.
  intros Hw. induction l as [|x l IH]; intros pre i Hi; simpl in Hi; [lia |].
  simpl. rewrite rolling_window_step by done.
  destruct i as [|i]; simpl.
  - f_equal. rewrite length_drop, length_app, Nat.add_0_r. simpl.
    destruct (Nat.ltb_spec (S (length pre)) w) as [Hlt|Hge].
    + rewrite (proj2 (Nat.eqb_neq _ _)); [done | lia].
    + rewrite (proj2 (Nat.eqb_eq _ _)) by lia. do 2 f_equal.
      replace (length pre + 1 - w)%nat with (S (length pre) - w)%nat by lia.
      replace (pre ++ x :: l) with ((pre ++ [x]) ++ l)
        by by rewrite <- app_assoc.
      rewrite (drop_app_le (pre ++ [x]) l)
        by (rewrite length_app; simpl; lia).
      rewrite take_app_le; [| rewrite length_drop, length_app; simpl; lia].
      rewrite take_ge; [done |].
      rewrite length_drop, length_app. simpl. lia.
  - rewrite (IH (pre ++ [x]) i) by lia.
    rewrite length_app. simpl.
    replace (length pre + 1 + i)%nat with (length pre + S i)%nat by lia.
    by rewrite <- app_assoc.
Qed.

(** Row [i] of a rolling mean: [NaN] before the window is full, the mean of
    the [w] rows that end at [i] afterwards. *)
Lemma rolling_mean_lookup w l i :
  (0 < w)%nat → (i < length l)%nat →
  rolling_mean w l !! i
  = Some (if (S i <? w)%nat then None
          else Some (mean (take w (drop (S i - w) l)))).
Proof.
  intros Hw Hi. unfold rolling_mean.
  pose proof (rolling_mean_from_lookup w l Hw [] i Hi) as H.
  by rewrite drop_nil in H.
Qed.

Lemma mean_7 win :
  length win = 7%nat → mean win = Qred (Qmake (sumZ win) 7).
Proof. intros Hlen. unfold mean. by rewrite Hlen. Qed.

Lemma rolling_mean_7_early l i :
  (i < 6)%nat → (i < length l)%nat → rolling_mean 7 l !! i = Some None.
Proof.
  intros Hi Hl. rewrite rolling_mean_lookup by lia.
  by rewrite (proj2 (Nat.ltb_lt _ _)) by lia.
Qed.

Lemma rolling_mean_7_full l i :
  (6 ≤ i)%nat → (i < length l)%nat →
  rolling_mean 7 l !! i
  = Some (Some (Qred (Qmake (sumZ (take 7 (drop (i - 6) l))) 7))).
Proof.
  intros Hi Hl. rewrite rolling_mean_lookup by lia.
  rewrite (proj2 (Nat.ltb_ge _ _)) by lia.
  replace (S i - 7)%nat with (i - 6)%nat by lia.
  rewrite mean_7; [done |]. rewrite length_take, length_drop. lia.
Qed.

(** *** Shape of the derived frame *)

Lemma preprocess_data_Date T s :
  col_Date (preprocess_data T s) = map g_Date (state_groups T s).
Proof. done. Qed.

Lemma preprocess_data_Confirmed T s :
  col_Confirmed (preprocess_data T s) = map g_Confirmed (state_groups T s).
Proof. done. Qed.

Lemma preprocess_data_Deaths T s :
  col_Deaths (preprocess_data T s) = map g_Deaths (state_groups T s).
Proof. done. Qed.

Lemma preprocess_data_Cured T s :
  col_Cured (preprocess_data T s) = map g_Cured (state_groups T s).
Proof. done. Qed.

Lemma preprocess_data_New_Cases T s :
  col_New_Cases (preprocess_data T s)
  = daily_new (col_Confirmed (preprocess_data T s)).
Proof. done. Qed.

Lemma preprocess_data_New_Deaths T s :
  col_New_Deaths (preprocess_data T s)
  = daily_new (col_Deaths (preprocess_data T s)).
Proof. done. Qed.

Lemma preprocess_data_New_Recoveries T s :
  col_New_Recoveries (preprocess_data T s)
  = daily_new (col_Cured (preprocess_data T s)).
Proof. done. Qed.

Lemma preprocess_data_New_Cases_MA T s :
  col_New_Cases_MA (preprocess_data T s)
  = rolling_mean 7 (col_New_Cases (preprocess_data T s)).
Proof. done. Qed.

Lemma preprocess_data_New_Deaths_MA T s :
  col_New_Deaths_MA (preprocess_data T s)
  = rolling_mean 7 (col_New_Deaths (preprocess_data T s)).
Proof. done. Qed.

Lemma preprocess_data_New_Recoveries_MA T s :
  col_New_Recoveries_MA (preprocess_data T s)
  = rolling_mean 7 (col_New_Recoveries (preprocess_data T s)).
Proof. done. Qed.

(** Every column of the derived frame has one entry per row. *)
Lemma preprocess_data_lengths T s :
  let sd := preprocess_data T s in
  let n := length (col_Date sd) in
  length (col_Confirmed sd) = n ∧ length (col_Deaths sd) = n
  ∧ length (col_Cured sd) = n ∧ length (col_New_Cases sd) = n
  ∧ length (col_New_Deaths sd) = n ∧ length (col_New_Recoveries sd) = n.
Proof.
  simpl. rewrite !daily_new_length, !length_map. tauto.
Qed.

Lemma state_groups_sorted T s :
  StronglySorted Z.lt (map g_Date (state_groups T s)).
Proof.
  unfold state_groups. case_bool_decide; apply groupby_Date_sum_sorted.
Qed.




(** *** Claims about the aggregator *)





(** C5. The first row of a non-empty derived series has the three deltas
    equal to zero, whatever its cumulative values are. *)
Theorem daily_new_first_row (T : list row) (s : string) :
  let sd := preprocess_data T s in
  col_Date sd ≠ [] →
  col_New_Cases sd !! 0%nat = Some 0
  ∧ col_New_Deaths sd !! 0%nat = Some 0
  ∧ col_New_Recoveries sd !! 0%nat = Some 0.
Proof.
  intros sd Hne. subst sd.
  rewrite preprocess_data_Date in Hne.
  rewrite preprocess_data_New_Cases, preprocess_data_New_Deaths,
    preprocess_data_New_Recoveries, preprocess_data_Confirmed,
    preprocess_data_Deaths, preprocess_data_Cured.
  destruct (state_groups T s) as [|g gs]; [done |].
  split_and!; by eapply daily_new_lookup_0.
Qed.

Lemma daily_new_first_row_witness :
  col_New_Cases (preprocess_data
    [ {| Date := 20200130; State := "Kerala"; Confirmed := 7;
         Deaths := 1; Cured := 2 |} ] "Kerala") !! 0%nat = Some 0
  ∧ col_New_Deaths (preprocess_data
    [ {| Date := 20200130; State := "Kerala"; Confirmed := 7;
         Deaths := 1; Cured := 2 |} ] "Kerala") !! 0%nat = Some 0
  ∧ col_New_Recoveries (preprocess_data
    [ {| Date := 20200130; State := "Kerala"; Confirmed := 7;
         Deaths := 1; Cured := 2 |} ] "Kerala") !! 0%nat = Some 0.
Proof.
  apply (daily_new_first_row
    [ {| Date := 20200130; State := "Kerala"; Confirmed := 7;
         Deaths := 1; Cured := 2 |} ] "Kerala").
  vm_compute. discriminate.
Defined.


(** The windows of C6 hold the rows [i-6], ..., [i]. *)
Lemma window_lookup (col : list Z) (i k : nat) :
  (6 ≤ i)%nat → (k < 7)%nat →
  take 7 (drop (i - 6) col) !! k = col !! (i - 6 + k)%nat.
Proof. intros Hi Hk. by rewrite lookup_take_lt, lookup_drop by done. Qed.


(** ** The metrics *)

Lemma is_max_unique l m m' : is_max l m → is_max l m' → m = m'.
Proof.
  intros [Hm Hle] [Hm' Hle'].
  eapply Forall_forall in Hle; [| exact Hm'].
  eapply Forall_forall in Hle'; [| exact Hm]. simpl in *. lia.
Qed.

Lemma foldl_max_is_max x l : is_max (x :: l) (foldl Z.max x l).
Proof.
  revert x. induction l as [|y l IH]; intros x; simpl.
  - split; [by left | constructor; [lia | constructor]].
  - destruct (IH (Z.max x y)) as [Hin Hle]. split.
    + apply elem_of_cons in Hin as [Heq|Hin].
      * rewrite Heq. destruct (Z.max_spec x y) as [[_ ->]|[_ ->]].
        -- right. by left.
        -- by left.
      * right. by right.
    + inversion Hle as [|?? Hxy Hl]; subst.
      constructor; [lia |]. constructor; [lia | done].
Qed.

(** [Series.max()] of a non-empty column is its greatest value. *)
Lemma Series_max_is_max l :
  l ≠ [] → ∃ m, Series_max l = Some m ∧ is_max l m.
Proof.
  destruct l as [|x l]; [done |]. intros _. eexists. split; [done |].
  apply foldl_max_is_max.
Qed.

Lemma sorted_last_is_max l m :
  Sorted Z.le l → last l = Some m → is_max l m.
Proof.
  intros Hs%(Sorted_StronglySorted _). revert m.
  induction Hs as [|x l Hs IH Hx]; intros m Hm; [done |].
  destruct l as [|y l].
  - injection Hm as <-. split; [by left | constructor; [lia | constructor]].
  - rewrite last_cons_cons in Hm. destruct (IH m Hm) as [Hin Hle].
    split; [by right |]. constructor; [| done].
    by eapply Forall_forall in Hx.
Qed.

(** On a column that never decreases [Series.max()] is the last value. *)
Lemma Series_max_sorted l : Sorted Z.le l → Series_max l = last l.
Proof.
  intros Hs. destruct (decide (l = [])) as [->|Hne]; [done |].
  destruct (Series_max_is_max l Hne) as (m & -> & Hm).
  destruct (last l) as [m'|] eqn:Hlast.
  - f_equal. eapply is_max_unique; [done |]. by apply sorted_last_is_max.
  - by apply last_None in Hlast.
Qed.

Lemma StronglySorted_lt_le l : StronglySorted Z.lt l → Sorted Z.le l.
Proof.
  intros Hs. apply StronglySorted_Sorted.
  induction Hs as [|x l Hs IH Hx]; constructor; [done |].
  eapply Forall_impl; [done |]. simpl. lia.
Qed.

(** The rows of the greatest date of a series in strictly ascending order
    of its dates: the last row. *)
Lemma select_latest {A} (dates : list Z) (col : list A) :
  StronglySorted Z.lt dates → length col = length dates →
  select (map (λ d, bool_decide (Some d = Series_max dates)) dates) col
  = option_list (last col).
Proof.
  intros Hs. rewrite (Series_max_sorted dates (StronglySorted_lt_le _ Hs)).
  revert col. induction Hs as [|d ds Hs IH Hd]; intros col Hlen.
  { by destruct col. }
  destruct col as [|c col]; [done |]. simpl in Hlen.
  destruct ds as [|d' ds].
  - destruct col; [|done]. simpl. by rewrite bool_decide_eq_true_2.
  - destruct col as [|c' col]; [done |].
    rewrite !last_cons_cons, (map_cons _ d), bool_decide_eq_false_2.
    + cbn [select]. apply (IH (c' :: col)). simpl in *. lia.
    + destruct (last (d' :: ds)) as [m|] eqn:Hlast; [|done].
      intros [= ->]. apply last_Some_elem_of in Hlast.
      eapply Forall_forall in Hd; [| done]. lia.
Qed.





Lemma filter_State_none (T : list row) s :
  (∀ r, r ∈ T → State r ≠ s) → filter (λ r, State r = s) T = [].
Proof.
  intros Hs. apply filter_none. apply Forall_forall. intros r Hr. by apply Hs.
Qed.

(** ** The frames in the store *)

Lemma alloc_Ok (df : DataFrame) (σ : store) :
  ∃ r, alloc df σ = Ok (r, <[r := df]> σ) ∧ σ !! r = None.
Proof.
  exists (fresh (dom σ)). split; [done |].
  apply not_elem_of_dom, is_fresh.
Qed.

Lemma frame_at_insert (σ : store) r df : frame_at (<[r := df]> σ) r = df.
Proof. unfold frame_at. by rewrite lookup_insert_eq. Qed.

Lemma frame_at_Some (σ : store) r df : σ !! r = Some df → frame_at σ r = df.
Proof. unfold frame_at. by intros ->. Qed.

Lemma bind_Ok {A B} (m : M A) (k : A → M B) σ a σ' :
  m σ = Ok (a, σ') → (m ≫= k) σ = k a σ'.
Proof. unfold mbind, M_bind. by intros ->. Qed.

Lemma frame_of_rows_lookup T :
  frame_of_rows T !! "Date" = Some (DatetimeCol (map Date T))
  ∧ frame_of_rows T !! "State/UnionTerritory" = Some (ObjectCol (map State T))
  ∧ frame_of_rows T !! "Confirmed" = Some (NumCol (map Confirmed T))
  ∧ frame_of_rows T !! "Deaths" = Some (NumCol (map Deaths T))
  ∧ frame_of_rows T !! "Cured" = Some (NumCol (map Cured T)).
Proof.
  unfold frame_of_rows.
  generalize (map Date T), (map State T), (map Confirmed T),
    (map Deaths T), (map Cured T).
  intros. split_and!; by vm_compute.
Qed.

Lemma zip_rows_columns T :
  zip_rows (map Date T) (map State T) (map Confirmed T) (map Deaths T)
    (map Cured T) = T.
Proof. induction T as [|[] T IH]; [done |]. simpl. by rewrite IH. Qed.

Lemma rows_of_frame_of_rows T : rows_of_frame (frame_of_rows T) = Ok T.
Proof.
  destruct (frame_of_rows_lookup T) as (Hd & Hs & Hc & Hx & Hy).
  unfold rows_of_frame, frame_column.
  rewrite Hd. cbn [rbind as_datetime].
  rewrite Hs. cbn [rbind as_object].
  rewrite Hc. cbn [rbind as_num].
  rewrite Hx. cbn [rbind as_num].
  rewrite Hy. cbn [rbind as_num].
  by rewrite zip_rows_columns.
Qed.

Lemma select_map_filter {A B} (P : A → Prop) `{!∀ x, Decision (P x)}
    (f : A → B) (l : list A) :
  select (map (λ x, bool_decide (P x)) l) (map f l) = map f (filter P l).
Proof.
  induction l as [|x l IH]; [done |].
  simpl. rewrite filter_cons. case_bool_decide.
  - rewrite decide_True by done. simpl. by rewrite IH.
  - by rewrite decide_False.
Qed.

Lemma frame_select_State T s :
  col_select (map (λ s', bool_decide (s' = s)) (map State T))
    <$> frame_of_rows T
  = frame_of_rows (filter (λ r, State r = s) T).
Proof.
  unfold frame_of_rows. rewrite !fmap_insert, fmap_empty. simpl.
  rewrite map_map.
  by rewrite !(select_map_filter (λ r, State r = s)).
Qed.

Lemma groupby_agg_Ok (σ : store) r T :
  σ !! r = Some (frame_of_rows T) →
  ∃ r', groupby_agg r σ
        = Ok (r', <[r' := frame_of_groups (groupby_Date_sum T)]> σ)
      ∧ σ !! r' = None.
Proof.
  intros Hr. unfold groupby_agg.
  rewrite (frame_at_Some _ _ _ Hr), rows_of_frame_of_rows. apply alloc_Ok.
Qed.

(** The frame that the branch of line 44 binds to [state_data]: a new
    object; the objects of the store stay as they are. *)
Lemma select_state_Ok (σ : store) cases_df T s :
  σ !! cases_df = Some (frame_of_rows T) →
  ∃ r σ',
    select_state cases_df s σ = Ok (r, σ')
    ∧ σ !! r = None
    ∧ σ' !! r = Some (frame_of_groups (state_groups T s))
    ∧ (∀ r0 df, σ !! r0 = Some df → σ' !! r0 = Some df).
Proof.
  intros Hc. unfold state_groups, select_state. case_bool_decide as Hs.
  - destruct (groupby_agg_Ok σ cases_df T Hc) as (r & Hr & Hfresh).
    exists r, (<[r := frame_of_groups (groupby_Date_sum T)]> σ).
    split_and!; [done | done | by rewrite lookup_insert_eq |].
    intros r0 df Hr0. rewrite lookup_insert_ne; [done | congruence].
  - set (F := filter (λ r, State r = s) T).
    destruct (alloc_Ok (frame_of_rows F) σ) as (r1 & Hr1 & Hf1).
    set (σ1 := <[r1 := frame_of_rows F]> σ) in *.
    destruct (alloc_Ok (frame_of_rows F) σ1) as (r2 & Hr2 & Hf2).
    set (σ2 := <[r2 := frame_of_rows F]> σ1) in *.
    assert (σ2 !! r2 = Some (frame_of_rows F)) as H2
      by apply lookup_insert_eq.
    destruct (groupby_agg_Ok σ2 r2 F H2) as (r3 & Hr3 & Hf3).
    exists r3, (<[r3 := frame_of_groups (groupby_Date_sum F)]> σ2).
    assert (getitem_mask_State cases_df s σ = Ok (r1, σ1)) as Hmask.
    { unfold getitem_mask_State.
      erewrite bind_Ok; last first.
      { unfold getitem. rewrite (frame_at_Some _ _ _ Hc).
        by rewrite (proj1 (proj2 (frame_of_rows_lookup T))). }
      erewrite bind_Ok; [| done].
      unfold getitem_mask. rewrite (frame_at_Some _ _ _ Hc).
      by rewrite frame_select_State. }
    assert (copy r1 σ1 = Ok (r2, σ2)) as Hcopy.
    { unfold copy. unfold σ1 at 1. by rewrite frame_at_insert. }
    split_and!.
    + erewrite bind_Ok; [| exact Hmask].
      erewrite bind_Ok; [| exact Hcopy]. done.
    + unfold σ2, σ1 in Hf3.
      apply lookup_insert_None in Hf3 as [Hf3 _].
      by apply lookup_insert_None in Hf3 as [Hf3 _].
    + by rewrite lookup_insert_eq.
    + intros r0 df Hr0. unfold σ2, σ1.
      rewrite !lookup_insert_ne; [done | congruence | | ].
      * intros <-. unfold σ1 in Hf2.
        apply lookup_insert_None in Hf2 as [Hf2 _]. congruence.
      * intros <-. unfold σ2, σ1 in Hf3.
        apply lookup_insert_None in Hf3 as [Hf3 _].
        apply lookup_insert_None in Hf3 as [Hf3 _]. congruence.
Qed.

Lemma set_diff_Ok (σ : store) r new old f l :
  σ !! r = Some f → f !! old = Some (NumCol l) →
  set_diff r new old σ
  = Ok ((), <[r := <[new := NumCol (fillna 0 (diff l))]> f]> σ).
Proof.
  intros Hr Hold. unfold set_diff.
  erewrite bind_Ok; last first.
  { unfold getitem. by rewrite (frame_at_Some _ _ _ Hr), Hold. }
  erewrite bind_Ok; [| done].
  unfold setitem. by rewrite (frame_at_Some _ _ _ Hr).
Qed.

Lemma set_clip_Ok (σ : store) r col f l :
  σ !! r = Some f → f !! col = Some (NumCol l) →
  set_clip r col σ = Ok ((), <[r := <[col := NumCol (clip_lower 0 l)]> f]> σ).
Proof.
  intros Hr Hcol. unfold set_clip.
  erewrite bind_Ok; last first.
  { unfold getitem. by rewrite (frame_at_Some _ _ _ Hr), Hcol. }
  erewrite bind_Ok; [| done].
  unfold setitem. by rewrite (frame_at_Some _ _ _ Hr).
Qed.

Lemma set_rolling_Ok (σ : store) r new old f l :
  σ !! r = Some f → f !! old = Some (NumCol l) →
  set_rolling r new old σ
  = Ok ((), <[r := <[new := MeanCol (rolling_mean 7 l)]> f]> σ).
Proof.
  intros Hr Hold. unfold set_rolling.
  erewrite bind_Ok; last first.
  { unfold getitem. by rewrite (frame_at_Some _ _ _ Hr), Hold. }
  erewrite bind_Ok; [| done].
  unfold setitem. by rewrite (frame_at_Some _ _ _ Hr).
Qed.

(** One step of [derive_columns]: run the assignment, then forget the
    frame it replaced. *)
Ltac step_assignment lem :=
  erewrite bind_Ok;
  [| eapply lem; [apply lookup_insert_eq | by vm_compute]];
  rewrite insert_insert_eq.

(** [derive_columns] fills the frame of [state_data], and no other. *)
Lemma derive_columns_Ok (σ : store) r dates confirmed deaths cured :
  derive_columns r
    (<[r := <["Date" := DatetimeCol dates]>
            (<["Confirmed" := NumCol confirmed]>
            (<["Deaths" := NumCol deaths]>
            (<["Cured" := NumCol cured]> ∅)))]> σ)
  = Ok (r, <[r := frame_of_StateData
             {| col_Date := dates;
                col_Confirmed := confirmed;
                col_Deaths := deaths;
                col_Cured := cured;
                col_New_Cases := daily_new confirmed;
                col_New_Deaths := daily_new deaths;
                col_New_Recoveries := daily_new cured;
                col_New_Cases_MA := rolling_mean 7 (daily_new confirmed);
                col_New_Deaths_MA := rolling_mean 7 (daily_new deaths);
                col_New_Recoveries_MA := rolling_mean 7 (daily_new cured)
             |}]> σ).
Proof.
  unfold derive_columns.
  step_assignment set_diff_Ok. step_assignment set_diff_Ok.
  step_assignment set_diff_Ok. step_assignment set_clip_Ok.
  step_assignment set_clip_Ok. step_assignment set_clip_Ok.
  step_assignment set_rolling_Ok. step_assignment set_rolling_Ok.
  step_assignment set_rolling_Ok.
  unfold mret, M_ret, frame_of_StateData, daily_new. cbn [col_Date
    col_Confirmed col_Deaths col_Cured col_New_Cases col_New_Deaths
    col_New_Recoveries col_New_Cases_MA col_New_Deaths_MA
    col_New_Recoveries_MA].
  do 3 f_equal.
Qed.

(** [preprocess_data] on the store: it returns a new frame with the columns
    of the derived series and leaves every frame of the store as it was. *)
Lemma preprocess_data_st_Ok (σ : store) cases_df T s :
  σ !! cases_df = Some (frame_of_rows T) →
  ∃ state_data σ',
    preprocess_data_st cases_df s σ = Ok (state_data, σ')
    ∧ σ !! state_data = None
    ∧ σ' !! state_data = Some (frame_of_StateData (preprocess_data T s))
    ∧ (∀ r df, σ !! r = Some df → σ' !! r = Some df).
Proof.
  intros Hc.
  destruct (select_state_Ok σ cases_df T s Hc)
    as (r & σ1 & Hsel & Hfresh & Hr & Hkeep).
  exists r, (<[r := frame_of_StateData (preprocess_data T s)]> σ1).
  split_and!; [| done | by rewrite lookup_insert_eq |].
  - unfold preprocess_data_st. erewrite bind_Ok; [| exact Hsel].
    rewrite <- (insert_id σ1 r _ Hr) at 1. unfold frame_of_groups.
    by rewrite derive_columns_Ok.
  - intros r0 df Hr0. rewrite lookup_insert_ne; [by apply Hkeep |].
    congruence.
Qed.

(** C10. [preprocess_data] leaves the table it is given unchanged: the
    frame of [cases_df] holds the same rows after the call, as does every
    other frame of the store; the derived series is a new frame. *)
Theorem preprocess_data_leaves_cases_df (σ : store) (cases_df : nat)
    (T : list row) (s : string) :
  σ !! cases_df = Some (frame_of_rows T) →
  ∃ state_data σ',
    preprocess_data_st cases_df s σ = Ok (state_data, σ')
    ∧ σ' !! cases_df = Some (frame_of_rows T)
    ∧ state_data ≠ cases_df
    ∧ (∀ r df, σ !! r = Some df → σ' !! r = Some df)
    ∧ σ' !! state_data = Some (frame_of_StateData (preprocess_data T s)).
Proof.
  intros Hc.
  destruct (preprocess_data_st_Ok σ cases_df T s Hc)
    as (r & σ' & Hrun & Hfresh & Hr & Hkeep).
  exists r, σ'. split_and!; [done | by apply Hkeep | congruence | done | done].
Qed.

Lemma preprocess_data_leaves_cases_df_witness :
  ∃ state_data σ',
    preprocess_data_st 0 "A" {[ 0%nat := frame_of_rows example_AB ]}
    = Ok (state_data, σ')
    ∧ σ' !! 0%nat = Some (frame_of_rows example_AB)
    ∧ state_data ≠ 0%nat
    ∧ (∀ r df, ({[ 0%nat := frame_of_rows example_AB ]} : store) !! r
               = Some df → σ' !! r = Some df)
    ∧ σ' !! state_data
      = Some (frame_of_StateData (preprocess_data example_AB "A")).
Proof.
  apply (preprocess_data_leaves_cases_df
           {[ 0%nat := frame_of_rows example_AB ]} 0 example_AB "A").
  apply lookup_singleton_eq.
Defined.

(** C8. A region label that no row of the table carries gives the empty
    derived series; the metrics of that series are [NaN], and neither the
    aggregation nor the metrics raise. *)
Theorem preprocess_data_unknown_region (T : list row) (s : string) :
  s ≠ All_India → (∀ r, r ∈ T → State r ≠ s) →
  preprocess_data T s = empty_StateData
  ∧ main_metrics (preprocess_data T s)
    = {| Total_Cases := None; Total_Deaths := None;
         Total_Recoveries := None; Active_Cases := None |}
  ∧ (∀ (σ : store) cases_df,
       σ !! cases_df = Some (frame_of_rows T) →
       ∃ state_data σ',
         preprocess_data_st cases_df s σ = Ok (state_data, σ')
         ∧ σ' !! state_data = Some (frame_of_StateData empty_StateData)).
Proof.
  intros Hs Hnone.
  assert (preprocess_data T s = empty_StateData) as Hempty.
  { unfold preprocess_data. rewrite bool_decide_eq_false_2 by done.
    by rewrite filter_State_none. }
  split_and!; [done | by rewrite Hempty |].
  intros σ cases_df Hc.
  destruct (preprocess_data_st_Ok σ cases_df T s Hc)
    as (r & σ' & Hrun & _ & Hr & _).
  exists r, σ'. by rewrite <- Hempty.
Qed.

Lemma preprocess_data_unknown_region_witness :
  preprocess_data example_AB "Nonexistent" = empty_StateData
  ∧ main_metrics (preprocess_data example_AB "Nonexistent")
    = {| Total_Cases := None; Total_Deaths := None;
         Total_Recoveries := None; Active_Cases := None |}
  ∧ (∀ (σ : store) cases_df,
       σ !! cases_df = Some (frame_of_rows example_AB) →
       ∃ state_data σ',
         preprocess_data_st cases_df "Nonexistent" σ = Ok (state_data, σ')
         ∧ σ' !! state_data = Some (frame_of_StateData empty_StateData)).
Proof.
  apply (preprocess_data_unknown_region example_AB "Nonexistent").
  - discriminate.
  - intros r Hr. apply list_elem_of_In in Hr. simpl in Hr.
    destruct Hr as [<-|[<-|[<-|[<-|[]]]]]; discriminate.
Defined.

(** * Further properties *)

(** ** The cleaned table *)

Lemma drop_duplicates_elem_of r l : r ∈ drop_duplicates l → r ∈ l.
Proof.
  induction l as [|x l IH]; [done |].
  simpl. case_bool_decide.
  - intros Hr. right. by apply IH.
  - intros [->|Hr]%elem_of_cons; [by left | right; by apply IH].
Qed.

Lemma drop_duplicates_keys k l :
  k ∈ map key (drop_duplicates l) ↔ k ∈ map key l.
Proof.
  induction l as [|x l IH]; [done |].
  simpl. case_bool_decide as Hdup.
  - rewrite IH, elem_of_cons. split; [by right |].
    intros [->|Hk]; done.
  - simpl. by rewrite !elem_of_cons, IH.
Qed.

Lemma drop_duplicates_NoDup l : NoDup (map key (drop_duplicates l)).
Proof.
  induction l as [|x l IH]; simpl; [constructor |].
  case_bool_decide as Hdup; [done |].
  simpl. constructor; [| done]. by rewrite drop_duplicates_keys.
Qed.

Lemma drop_duplicates_length l :
  (length (drop_duplicates l) ≤ length l)%nat.
Proof.
  induction l as [|x l IH]; simpl; [done |].
  case_bool_decide; simpl; lia.
Qed.

(** A table without repeated keys is left as it is. *)
Lemma drop_duplicates_id l : NoDup (map key l) → drop_duplicates l = l.
Proof.
  induction l as [|x l IH]; [done |].
  simpl. intros [Hx Hl]%NoDup_cons.
  rewrite bool_decide_eq_false_2 by done. by rewrite IH.
Qed.


(** X1. The table that [load_data] returns is in ascending order of its
    dates. *)
Theorem load_data_sorted_by_Date to_datetime to_numeric raw T :
  load_data to_datetime to_numeric raw = Ok T → Sorted Z.le (map Date T).
Proof.
  intros (cleaned & _ & ->)%load_data_Ok. apply sort_values_sorted.
Qed.

Lemma load_data_sorted_by_Date_witness :
  Sorted Z.le
    (map Date
       [ {| Date := 20200130; State := "Kerala"; Confirmed := 3;
            Deaths := 0; Cured := 1 |};
         {| Date := 20200131; State := "Kerala"; Confirmed := 2;
            Deaths := 0; Cured := 0 |} ]).
Proof.
  apply (load_data_sorted_by_Date iso_date int_literal
           example_raw_duplicate).
  reflexivity.
Defined.

(** X2. No two rows of the table that [load_data] returns have the same
    date and region. *)
Theorem load_data_unique_keys to_datetime to_numeric raw T :
  load_data to_datetime to_numeric raw = Ok T → NoDup (map key T).
Proof.
  intros (cleaned & _ & ->)%load_data_Ok.
  rewrite sort_values_Permutation. apply drop_duplicates_NoDup.
Qed.

Lemma load_data_unique_keys_witness :
  NoDup
    (map key
       [ {| Date := 20200130; State := "Kerala"; Confirmed := 3;
            Deaths := 0; Cured := 1 |};
         {| Date := 20200131; State := "Kerala"; Confirmed := 2;
            Deaths := 0; Cured := 0 |} ]).
Proof.
  apply (load_data_unique_keys iso_date int_literal example_raw_duplicate).
  reflexivity.
Defined.

(** X3. [load_data] invents no row and loses no key: every row of its
    table is the cleaned form of a raw row, and the key of every raw row is
    the key of a row of the table. *)
Theorem load_data_rows_and_keys to_datetime to_numeric raw T :
  load_data to_datetime to_numeric raw = Ok T →
  (∀ x, x ∈ T →
     ∃ r, r ∈ raw ∧ clean_row to_datetime to_numeric r = Ok x)
  ∧ (∀ r, r ∈ raw →
     ∃ x y, clean_row to_datetime to_numeric r = Ok x
            ∧ y ∈ T ∧ key y = key x)
  ∧ (length T ≤ length raw)%nat.
Proof.
  intros (cleaned & Hcl & ->)%load_data_Ok. split_and!.
  - intros x Hx. rewrite sort_values_Permutation in Hx.
    apply drop_duplicates_elem_of in Hx.
    apply list_elem_of_lookup in Hx as [i Hi].
    destruct (Forall2_lookup_r _ _ _ _ _ Hcl Hi) as (r & Hr & Hrx).
    exists r. split; [by eapply list_elem_of_lookup_2 | done].
  - intros r Hr. apply list_elem_of_lookup in Hr as [i Hi].
    destruct (Forall2_lookup_l _ _ _ _ _ Hcl Hi) as (x & Hx & Hrx).
    assert (key x ∈ map key (sort_values (drop_duplicates cleaned))) as Hk.
    { rewrite sort_values_Permutation, drop_duplicates_keys.
      apply list_elem_of_fmap. exists x.
      split; [done | by eapply list_elem_of_lookup_2]. }
    apply list_elem_of_fmap in Hk as (y & Hy & Hin). eauto.
  - rewrite sort_values_Permutation.
    rewrite (Forall2_length _ _ _ Hcl). apply drop_duplicates_length.
Qed.

Lemma load_data_rows_and_keys_witness :
  (∀ x, x ∈ [ {| Date := 20200130; State := "Kerala"; Confirmed := 3;
                 Deaths := 0; Cured := 1 |};
              {| Date := 20200131; State := "Kerala"; Confirmed := 2;
                 Deaths := 0; Cured := 0 |} ] →
     ∃ r, r ∈ example_raw_duplicate
          ∧ clean_row iso_date int_literal r = Ok x)
  ∧ (∀ r, r ∈ example_raw_duplicate →
     ∃ x y, clean_row iso_date int_literal r = Ok x
            ∧ y ∈ [ {| Date := 20200130; State := "Kerala"; Confirmed := 3;
                       Deaths := 0; Cured := 1 |};
                    {| Date := 20200131; State := "Kerala"; Confirmed := 2;
                       Deaths := 0; Cured := 0 |} ]
            ∧ key y = key x)
  ∧ (2 ≤ 3)%nat.
Proof.
  apply (load_data_rows_and_keys iso_date int_literal example_raw_duplicate).
  reflexivity.
Defined.


(** ** Region labels *)
















(** ** The series of one region *)









(** ** The order of the rows does not matter *)

Lemma sumZ_Permutation l1 l2 : l1 ≡ₚ l2 → sumZ l1 = sumZ l2.
Proof. induction 1; simpl; lia. Qed.

Lemma date_sum_Permutation f d T T' :
  T ≡ₚ T' → date_sum f d T = date_sum f d T'.
Proof.
  intros HT. unfold date_sum. apply sumZ_Permutation.
  apply Permutation_map. by rewrite HT.
Qed.

Lemma sorted_lt_NoDup l : StronglySorted Z.lt l → NoDup l.
Proof.
  induction 1 as [|x l Hs IH Hx]; constructor; [| done].
  intros Hin. eapply Forall_forall in Hx; [| done]. lia.
Qed.

(** A set of dates has one strictly ascending enumeration. *)
Lemma sorted_lt_unique l1 l2 :
  StronglySorted Z.lt l1 → StronglySorted Z.lt l2 →
  (∀ x, x ∈ l1 ↔ x ∈ l2) → l1 = l2.
Proof.
  intros H1 H2 Hin. apply (StronglySorted_unique_strong Z.lt); [| done..|].
  - intros. lia.
  - apply NoDup_Permutation; [by apply sorted_lt_NoDup.. | done].
Qed.

(** The grouped result is determined by its dates and the sums. *)
Lemma groupby_Date_sum_canonical df :
  groupby_Date_sum df
  = map (λ d, {| g_Date := d;
                 g_Confirmed := date_sum Confirmed d df;
                 g_Deaths := date_sum Deaths d df;
                 g_Cured := date_sum Cured d df |})
        (map g_Date (groupby_Date_sum df)).
Proof.
  apply list_eq. intros i. rewrite !list_lookup_fmap.
  destruct (groupby_Date_sum df !! i) as [g|] eqn:Hg; [|done].
  simpl. f_equal.
  rewrite <- (groupby_Date_sum_lookup Confirmed g_Confirmed df i g),
          <- (groupby_Date_sum_lookup Deaths g_Deaths df i g),
          <- (groupby_Date_sum_lookup Cured g_Cured df i g);
    [by destruct g | constructor | done | constructor | done
    | constructor | done].
Qed.

Lemma groupby_Date_sum_Permutation T T' :
  T ≡ₚ T' → groupby_Date_sum T = groupby_Date_sum T'.
Proof.
  intros HT.
  assert (map g_Date (groupby_Date_sum T)
          = map g_Date (groupby_Date_sum T')) as Hdates.
  { apply sorted_lt_unique; [apply groupby_Date_sum_sorted.. |].
    intros d. rewrite !groupby_Date_sum_dates. by rewrite HT. }
  rewrite (groupby_Date_sum_canonical T), (groupby_Date_sum_canonical T').
  rewrite Hdates. apply map_ext. intros d.
  by rewrite !(date_sum_Permutation _ d T T' HT).
Qed.

(** X8. [preprocess_data] does not depend on the order of the rows of the
    table: two tables with the same rows give the same derived series. In
    particular the order that [sort_values] gives to rows of one date is
    immaterial. *)
Theorem preprocess_data_Permutation (T T' : list row) (s : string) :
  T ≡ₚ T' → preprocess_data T s = preprocess_data T' s.
Proof.
  intros HT. unfold preprocess_data. case_bool_decide.
  - by rewrite (groupby_Date_sum_Permutation T T').
  - rewrite (groupby_Date_sum_Permutation
               (filter (λ r, State r = s) T)
               (filter (λ r, State r = s) T')); [done |].
    by rewrite HT.
Qed.

Lemma preprocess_data_Permutation_witness :
  preprocess_data
    [ {| Date := 20200131; State := "Kerala"; Confirmed := 8;
         Deaths := 1; Cured := 5 |};
      {| Date := 20200130; State := "Kerala"; Confirmed := 10;
         Deaths := 1; Cured := 2 |} ] "Kerala"
  = preprocess_data example_correction "Kerala".
Proof.
  apply preprocess_data_Permutation. apply perm_swap.
Defined.

(** ** Empty and non-empty series *)






(** ** The shape of the derived frame *)

Lemma rolling_mean_from_length w win l :
  length (rolling_mean_from w win l) = length l.
Proof.
  revert win. induction l as [|x l IH]; intros win; simpl; [done |].
  by rewrite IH.
Qed.

Lemma rolling_mean_length w l : length (rolling_mean w l) = length l.
Proof. apply rolling_mean_from_length. Qed.

Lemma add_to_groups_length r gs :
  (length (add_to_groups r gs) ≤ S (length gs))%nat.
Proof.
  induction gs as [|g gs IH]; simpl; [done |].
  repeat case_match; simpl; lia.
Qed.

Lemma groupby_Date_sum_length df :
  (length (groupby_Date_sum df) ≤ length df)%nat.
Proof.
  unfold groupby_Date_sum.
  assert (∀ gs, (length (foldl (λ gs r, add_to_groups r gs) gs df)
                 ≤ length gs + length df)%nat) as Hgen.
  { induction df as [|r df IH]; intros gs; simpl; [lia |].
    specialize (IH (add_to_groups r gs)).
    pose proof (add_to_groups_length r gs). lia. }
  apply (Hgen []).
Qed.

(** X10. The derived frame is rectangular: its ten columns have one entry
    for each date, and it has at most as many rows as the table. *)
Theorem preprocess_data_rectangular (T : list row) (s : string) :
  let sd := preprocess_data T s in
  let n := length (col_Date sd) in
  length (col_Confirmed sd) = n ∧ length (col_Deaths sd) = n
  ∧ length (col_Cured sd) = n ∧ length (col_New_Cases sd) = n
  ∧ length (col_New_Deaths sd) = n ∧ length (col_New_Recoveries sd) = n
  ∧ length (col_New_Cases_MA sd) = n ∧ length (col_New_Deaths_MA sd) = n
  ∧ length (col_New_Recoveries_MA sd) = n
  ∧ (n ≤ length T)%nat.
Proof.
  intros sd n. subst sd n.
  rewrite preprocess_data_New_Cases_MA, preprocess_data_New_Deaths_MA,
    preprocess_data_New_Recoveries_MA, !rolling_mean_length.
  destruct (preprocess_data_lengths T s) as (Hc & Hd & Hr & Hnc & Hnd & Hnr).
  split_and!; try done.
  rewrite preprocess_data_Date, length_map. unfold state_groups.
  case_bool_decide.
  - apply groupby_Date_sum_length.
  - etrans; [apply groupby_Date_sum_length | apply length_filter].
Qed.

(** ** Deltas and cumulative values *)







(** ** The smoothed deltas *)

Lemma sumZ_nonneg l : Forall (λ x, 0 ≤ x) l → 0 ≤ sumZ l.
Proof. induction 1; simpl; lia. Qed.

Lemma mean_nonneg win : Forall (λ x, 0 ≤ x) win → (0 <= mean win)%Q.
Proof.
  intros Hwin%sumZ_nonneg. unfold mean. rewrite Qred_correct.
  unfold Qle. simpl. lia.
Qed.

Lemma rolling_mean_nonneg w l :
  (0 < w)%nat → Forall (λ x, 0 ≤ x) l → Forall nonneg_or_NaN (rolling_mean w l).
Proof.
  intros Hw Hl. apply Forall_forall. intros o Ho.
  apply list_elem_of_lookup in Ho as [i Hi].
  assert (i < length l)%nat as Hlt.
  { apply lookup_lt_Some in Hi. by rewrite rolling_mean_length in Hi. }
  rewrite rolling_mean_lookup in Hi by done. injection Hi as <-.
  case_match; [done |]. simpl. apply mean_nonneg.
  by apply Forall_take, Forall_drop.
Qed.

(** X12. No smoothed value of a derived series is negative: each entry of
    the three moving-average columns is [NaN] or a non-negative rational. *)
Theorem rolling_mean_columns_nonneg (T : list row) (s : string) :
  let sd := preprocess_data T s in
  Forall nonneg_or_NaN (col_New_Cases_MA sd)
  ∧ Forall nonneg_or_NaN (col_New_Deaths_MA sd)
  ∧ Forall nonneg_or_NaN (col_New_Recoveries_MA sd).
Proof.
  intros sd. subst sd.
  rewrite preprocess_data_New_Cases_MA, preprocess_data_New_Deaths_MA,
    preprocess_data_New_Recoveries_MA, preprocess_data_New_Cases,
    preprocess_data_New_Deaths, preprocess_data_New_Recoveries.
  split_and!; apply rolling_mean_nonneg; try lia; apply daily_new_nonneg.
Qed.

(** ** The latest snapshot *)

(** X13. The snapshot of line 181 is the last row of the derived series:
    each of its ten columns holds the last entry of the column of the
    series, and nothing when the series is empty; the date of that row is
    the greatest date of the series. *)
Theorem latest_data_last_row (T : list row) (s : string) :
  let sd := preprocess_data T s in
  let ld := latest_data sd in
  col_Date ld = option_list (last (col_Date sd))
  ∧ col_Confirmed ld = option_list (last (col_Confirmed sd))
  ∧ col_Deaths ld = option_list (last (col_Deaths sd))
  ∧ col_Cured ld = option_list (last (col_Cured sd))
  ∧ col_New_Cases ld = option_list (last (col_New_Cases sd))
  ∧ col_New_Deaths ld = option_list (last (col_New_Deaths sd))
  ∧ col_New_Recoveries ld = option_list (last (col_New_Recoveries sd))
  ∧ col_New_Cases_MA ld = option_list (last (col_New_Cases_MA sd))
  ∧ col_New_Deaths_MA ld = option_list (last (col_New_Deaths_MA sd))
  ∧ col_New_Recoveries_MA ld
    = option_list (last (col_New_Recoveries_MA sd))
  ∧ (∀ d m, d ∈ col_Date sd → last (col_Date sd) = Some m → d ≤ m).
Proof.
  intros sd ld.
  destruct (preprocess_data_lengths T s) as (Hc & Hd & Hr & Hnc & Hnd & Hnr).
  fold sd in Hc, Hd, Hr, Hnc, Hnd, Hnr.
  pose proof (state_groups_sorted T s) as Hs.
  rewrite <- preprocess_data_Date in Hs. fold sd in Hs.
  assert (length (col_New_Cases_MA sd) = length (col_Date sd)) as Hmc.
  { unfold sd. rewrite preprocess_data_New_Cases_MA, rolling_mean_length.
    done. }
  assert (length (col_New_Deaths_MA sd) = length (col_Date sd)) as Hmd.
  { unfold sd. rewrite preprocess_data_New_Deaths_MA, rolling_mean_length.
    done. }
  assert (length (col_New_Recoveries_MA sd) = length (col_Date sd)) as Hmr.
  { unfold sd.
    rewrite preprocess_data_New_Recoveries_MA, rolling_mean_length. done. }
  unfold ld, latest_data.
  cbn [col_Date col_Confirmed col_Deaths col_Cured col_New_Cases
    col_New_Deaths col_New_Recoveries col_New_Cases_MA col_New_Deaths_MA
    col_New_Recoveries_MA].
  split_and!; try (by apply select_latest).
  intros d m Hin Hlast.
  destruct (sorted_last_is_max (col_Date sd) m) as [_ Hmax];
    [by apply StronglySorted_lt_le | done |].
  by eapply Forall_forall in Hmax.
Qed.

(** ** The options of the region selector *)

Lemma unique_elem_of x l : x ∈ unique l ↔ x ∈ l.
Proof.
  induction l as [|y l IH]; [done |].
  simpl. rewrite !elem_of_cons, list_elem_of_filter, IH.
  destruct (decide (x = y)); tauto.
Qed.

Lemma unique_NoDup l : NoDup (unique l).
Proof.
  induction l as [|y l IH]; simpl; constructor.
  - rewrite list_elem_of_filter. by intros [? _].
  - by apply NoDup_filter.
Qed.

Lemma insert_sorted_Permutation x l : insert_sorted x l ≡ₚ x :: l.
Proof.
  induction l as [|y l IH]; [done |].
  simpl. case_match; [done |]. rewrite IH. apply Permutation_swap.
Qed.

Lemma sorted_Permutation l : sorted l ≡ₚ l.
Proof.
  induction l as [|x l IH]; [done |].
  simpl. rewrite insert_sorted_Permutation. by rewrite IH.
Qed.

Lemma insert_sorted_Sorted x l :
  Sorted string_le l → Sorted string_le (insert_sorted x l).
Proof.
  induction l as [|y l IH]; intros Hs; simpl.
  - repeat constructor.
  - destruct (String.leb x y) eqn:Hxy.
    + constructor; [done | by constructor].
    + apply Sorted_inv in Hs as [Hs Hhd].
      constructor; [by apply IH |].
      assert (string_le y x) as Hyx.
      { destruct (String.leb_total x y) as [H|H]; [congruence | done]. }
      destruct l as [|z l]; simpl.
      * by constructor.
      * inversion Hhd; subst. destruct (String.leb x z); by constructor.
Qed.

Lemma sorted_Sorted l : Sorted string_le (sorted l).
Proof.
  induction l as [|x l IH]; simpl; [constructor |].
  by apply insert_sorted_Sorted.
Qed.

(** X14. The options of the region selector are "All India" followed by
    the region labels of the table, each once, in ascending order. *)
Theorem state_options_regions (T : list row) :
  ∃ regions,
    state_options T = All_India :: regions
    ∧ Sorted string_le regions
    ∧ NoDup regions
    ∧ (∀ s, s ∈ regions ↔ ∃ r, r ∈ T ∧ State r = s).
Proof.
  exists (sorted (unique (map State T))). split_and!.
  - done.
  - apply sorted_Sorted.
  - rewrite sorted_Permutation. apply unique_NoDup.
  - intros s. rewrite sorted_Permutation, unique_elem_of, list_elem_of_fmap.
    split; intros (r & ? & ?); eauto.
Qed.




(** ** The figure *)

Lemma filter_all {A} (P : A → Prop) `{!∀ x, Decision (P x)} (l : list A) :
  Forall P l → filter P l = l.
Proof.
  induction 1 as [|x l Hx _ IH]; [done |].
  by rewrite filter_cons_True, IH.
Qed.

(** The smoothed column has a value from the seventh row on. *)
Lemma rolling_mean_7_defined l :
  length (filter is_Some (rolling_mean 7 l)) = (length l - 6)%nat.
Proof.
  rewrite <- (take_drop 6 (rolling_mean 7 l)), filter_app, length_app.
  rewrite filter_none, filter_all.
  - rewrite length_drop, rolling_mean_length. done.
  - apply Forall_lookup. intros i o Hi. rewrite lookup_drop in Hi.
    assert (6 + i < length l)%nat as Hlt.
    { apply lookup_lt_Some in Hi. by rewrite rolling_mean_length in Hi. }
    rewrite rolling_mean_7_full in Hi by lia. by injection Hi as <-.
  - apply Forall_lookup. intros i o Hi.
    apply lookup_take_Some in Hi as [Hi Hlt].
    assert (i < length l)%nat as Hlen.
    { apply lookup_lt_Some in Hi. by rewrite rolling_mean_length in Hi. }
    rewrite rolling_mean_7_early in Hi by done. injection Hi as <-.
    by intros [? ?].
Qed.

(** X16. The figure has seven traces over four subplots. Every trace is
    drawn against the dates of the series and has one value for each date;
    its subplot has a titled axis. A trace of daily or total values shows
    a point for every date, a trace of a 7-day average a point for every
    date from the seventh on. *)
Theorem create_visualizations_traces (T : list row) (s : string) :
  let sd := preprocess_data T s in
  let fig := create_visualizations sd s in
  let n := length (col_Date sd) in
  length (fig_traces fig) = 7%nat
  ∧ Forall (λ t,
       t_x t = DatetimeCol (col_Date sd)
       ∧ column_length (t_y t) = n
       ∧ (∃ title, (t_row t, t_col t, title) ∈ fig_yaxis_titles fig)
       ∧ plotted_points (t_y t)
         = if bool_decide (t_name t = "7-day Average")
           then (n - 6)%nat else n)
     (fig_traces fig).
Proof.
  intros sd fig n.
  destruct (preprocess_data_lengths T s) as (Hc & _ & _ & Hnc & Hnd & Hnr).
  fold sd in Hc, Hnc, Hnd, Hnr. fold n in Hc, Hnc, Hnd, Hnr.
  assert (plotted_points (MeanCol (col_New_Cases_MA sd)) = (n - 6)%nat
          ∧ plotted_points (MeanCol (col_New_Deaths_MA sd)) = (n - 6)%nat
          ∧ plotted_points (MeanCol (col_New_Recoveries_MA sd))
            = (n - 6)%nat) as (Pc & Pd & Pr).
  { unfold sd. rewrite preprocess_data_New_Cases_MA,
      preprocess_data_New_Deaths_MA, preprocess_data_New_Recoveries_MA.
    cbn [plotted_points]. rewrite !rolling_mean_7_defined.
    fold sd. by rewrite Hnc, Hnd, Hnr. }
  assert (column_length (MeanCol (col_New_Cases_MA sd)) = n
          ∧ column_length (MeanCol (col_New_Deaths_MA sd)) = n
          ∧ column_length (MeanCol (col_New_Recoveries_MA sd)) = n)
    as (Lc & Ld & Lr).
  { unfold sd. rewrite preprocess_data_New_Cases_MA,
      preprocess_data_New_Deaths_MA, preprocess_data_New_Recoveries_MA.
    cbn [column_length]. rewrite !rolling_mean_length.
    fold sd. by rewrite Hnc, Hnd, Hnr. }
  split; [done |].
  unfold fig, create_visualizations. cbn [fig_traces fig_yaxis_titles].
  repeat apply Forall_cons_2; [..| apply Forall_nil_2];
    cbn [t_x t_y t_name t_row t_col];
    (split_and!;
     [ done
     | done
     | eexists; apply list_elem_of_In; simpl; eauto
     | done ]).
Qed.

(** ** The aggregate and the regions *)








